(** * cbre-chatbot: the chat endpoint (main.py) and the ingestion script
      (ingest_data.py), embedded as Rocq functions.

    Python [str] values are [string]s; one character of the model is one
    character of the Python string.  A call that may raise returns a
    [result]; an [except Exception as e] handler only ever looks at
    [str(e)], so an exception is represented by that message.  The
    embedding model, the Chroma collection and the text splitter are
    third-party objects: the code only talks to them through a handful of
    methods, which appear here as the fields of a record or as section
    variables.  [print] calls are omitted. *)

From Stdlib Require Import String Ascii List ZArith Bool Lia.
Import ListNotations.
Open Scope string_scope.

(** ** Python values *)
Module Py.

(** The line feed character, written [\n] in the Python source. *)
Definition LF : string := String "010"%char EmptyString.

(** [s[:n]]: the first [n] characters of [s], all of [s] when it is
    shorter. *)
Fixpoint slice_to (n : nat) (s : string) : string :=
  match n, s with
  | S n', String c s' => String c (slice_to n' s')
  | _, _ => EmptyString
  end.

(** [sep.join(parts)]. *)
Fixpoint join (sep : string) (parts : list string) : string :=
  match parts with
  | [] => EmptyString
  | [p] => p
  | p :: rest => p ++ sep ++ join sep rest
  end.

(** Truth value of a [str]: false exactly for the empty string. *)
Definition truthy (s : string) : bool :=
  match s with
  | EmptyString => false
  | String _ _ => true
  end.

(** The outcome of a call: a value, or an exception (kept as [str(e)]). *)
Inductive result (A : Type) : Type :=
| Ok (a : A)
| Raise (e : string).
Arguments Ok {A} a.
Arguments Raise {A} e.

Definition bind {A B : Type} (m : result A) (k : A -> result B) : result B :=
  match m with
  | Ok a => k a
  | Raise e => Raise e
  end.

(** [try: body / except Exception as e: handler(e)]. *)
Definition try_except {A : Type} (body : result A) (handler : string -> result A)
  : result A :=
  match body with
  | Ok a => Ok a
  | Raise e => handler e
  end.

(** A JSON field of a request body. *)
Inductive field (A : Type) : Type :=
| Missing
| Null
| Present (a : A).
Arguments Missing {A}.
Arguments Null {A}.
Arguments Present {A} a.

(** What is left of an outcome once the exception's message is dropped. *)
Definition returned {A : Type} (m : result A) : option A :=
  match m with
  | Ok a => Some a
  | Raise _ => None
  end.

(** [c in s] for a single character [c]. *)
Fixpoint has_char (c : ascii) (s : string) : bool :=
  match s with
  | EmptyString => false
  | String c' s' => (c' =? c)%char || has_char c s'
  end.

End Py.

Declare Scope py_scope.
Delimit Scope py_scope with py.
Notation "x <- m ;; k" := (Py.bind m (fun x => k))
  (at level 61, m at next level, right associativity) : py_scope.
Notation "'try' body 'except' e => handler" :=
  (Py.try_except body (fun e => handler))
  (at level 10, body at level 200, e name, handler at level 200) : py_scope.

(** ** main.py *)
Module Main.
Import Py.
Local Open Scope py_scope.

(** langchain's [Document]. *)
Record Document : Type := mkDocument {
  page_content : string;
  metadata : list (string * string)
}.

(** What the module uses of the Chroma vector store: the size of its
    collection, [vectorstore._collection.count()], and
    [vectorstore.similarity_search(query, k=k)].  Both are calls into the
    database and may raise. *)
Record Chroma : Type := mkChroma {
  collection_count : result Z;
  similarity_search : string -> Z -> result (list Document)
}.

(** The context [chat] passes on when the store is missing or empty. *)
Definition NO_DOCUMENTS : string :=
  "No documents in database yet. Using general knowledge.".

(** The context [chat] passes on when the search raised. *)
Definition NO_RELEVANT : string := "No relevant documents found.".

Definition FALLBACK : string :=
  "I don't have specific information about that in my database yet. Please make sure you've run 'python ingest_data.py' to load the CBRE documents first.".

Definition PREFIX : string := "Based on CBRE's information: ".

Definition SUFFIX : string :=
  LF ++ LF ++ "Is there anything specific you'd like to know more about?".

(** [generate_response(query, context)], main.py lines 46-51. *)
Definition generate_response (query context : string) : string :=
  if truthy context && negb (context =? NO_DOCUMENTS) then
    PREFIX ++ slice_to 500 context ++ SUFFIX
  else
    FALLBACK.

Record Message : Type := mkMessage {
  role : string;
  content : string
}.

(** [ChatRequest]: [query] is required, [conversation_history] is
    optional (it may be [None]) and defaults to the empty list. *)
Record ChatRequest : Type := mkChatRequest {
  query : string;
  conversation_history : option (list Message)
}.

Record ChatResponse : Type := mkChatResponse {
  response : string;
  sources : list string;
  timestamp : string
}.

(** What a call of the endpoint ends in: the response model, FastAPI's
    answer to a body that does not validate against [ChatRequest], or the
    [HTTPException] the handler raises. *)
Inductive Reply : Type :=
| Reply200 (r : ChatResponse)
| RequestValidationError
| HTTPException (status_code : Z) (detail : string).

(** The body of the outer [try] of [chat], main.py lines 107-134.
    [vectorstore] is the module-level global ([None] when the database
    could not be set up) and [now] is [datetime.utcnow().isoformat()]. *)
Definition chat_body (vectorstore : option Chroma) (now : string)
  (request : ChatRequest) : result ChatResponse :=
  let sources := [] in
  let context := "" in
  ctx_src <-
    match vectorstore with
    | Some vs =>
        n <- collection_count vs ;;
        if (n >? 0)%Z then
          try
            results <- similarity_search vs (query request) 3 ;;
            let context := join (LF ++ LF) (map page_content results) in
            let sources :=
              map (fun doc => slice_to 150 (page_content doc) ++ "...") results in
            Ok (context, sources)
          except e =>
            let context := NO_RELEVANT in
            Ok (context, sources)
        else
          let context := NO_DOCUMENTS in
          Ok (context, sources)
    | None =>
        let context := NO_DOCUMENTS in
        Ok (context, sources)
    end ;;
  let '(context, sources) := ctx_src in
  let response_text := generate_response (query request) context in
  Ok (mkChatResponse response_text sources now).

(** [chat(request)], main.py lines 103-138: anything the body raises
    becomes an [HTTPException] with status 500. *)
Definition chat (vectorstore : option Chroma) (now : string)
  (request : ChatRequest) : Reply :=
  match chat_body vectorstore now request with
  | Ok r => Reply200 r
  | Raise e => HTTPException 500 ("Error: " ++ e)
  end.

(** The JSON body of a POST to [/chat], before validation. *)
Record Body : Type := mkBody {
  body_query : field string;
  body_conversation_history : field (list Message)
}.

(** Validation of a body against [ChatRequest], main.py lines 71-73. *)
Definition parse_ChatRequest (b : Body) : option ChatRequest :=
  match body_query b with
  | Present q =>
      Some (mkChatRequest q
              match body_conversation_history b with
              | Missing => Some []
              | Null => None
              | Present h => Some h
              end)
  | Missing | Null => None
  end.

(** The route [POST /chat]: FastAPI validates the body and only then
    calls [chat]. *)
Definition post_chat (vectorstore : option Chroma) (now : string) (b : Body)
  : Reply :=
  match parse_ChatRequest b with
  | Some request => chat vectorstore now request
  | None => RequestValidationError
  end.

(** *** Names for the parts of [chat] the statements below talk about *)

(** [s[:150] + "..."] for each retrieved document, main.py line 117. *)
Definition source_of (doc : Document) : string :=
  slice_to 150 (page_content doc) ++ "...".

(** [context] as built on main.py line 116. *)
Definition context_of (results : list Document) : string :=
  join (LF ++ LF) (map page_content results).


(** A reply with its timestamp blanked. *)
Definition without_timestamp (r : Reply) : Reply :=
  match r with
  | Reply200 x => Reply200 (mkChatResponse (response x) (sources x) "")
  | other => other
  end.

(** *** The rest of the module: start-up and the health route *)

(** The set-up of the module-level [vectorstore], main.py lines 54-64:
    it starts as [None] and stays so when constructing the Chroma client
    raises.  [constructed] is the outcome of the call [Chroma(...)]. *)
Definition init_vectorstore (constructed : result Chroma) : option Chroma :=
  let vectorstore := None in
  match constructed with
  | Ok client => Some client
  | Raise e => vectorstore
  end.

(** The dict [health_check] returns, main.py lines 96-101. *)
Record HealthReport : Type := mkHealthReport {
  health_status : string;
  health_timestamp : string;
  database_ready : bool;
  documents_count : Z
}.

(** [health_check()], main.py lines 94-101.  There is no [try] around
    the count: an exception leaves the handler. *)
Definition health_check (vectorstore : option Chroma) (now : string)
  : result HealthReport :=
  n <- match vectorstore with
       | Some vs => collection_count vs
       | None => Ok 0%Z
       end ;;
  Ok (mkHealthReport "healthy" now
        match vectorstore with Some _ => true | None => false end
        n).

End Main.

(** ** ingest_data.py *)
Module Ingest.
Import Py Main.

(** The sample data, ingest_data.py lines 33-124: each entry is the dict
    [{"content": ..., "metadata": {"title": ..., "category": ...}}],
    written as the pair of its two values. *)
Definition sample_documents : list (string * list (string * string)) :=
[
  ("CBRE Office Space Solutions
        
CBRE offers comprehensive office space solutions in major metropolitan areas across the United States. Our portfolio includes Class A office buildings featuring modern amenities such as high-speed internet, conference rooms, fitness centers, and 24/7 security. 

We provide flexible lease terms ranging from short-term coworking spaces to long-term corporate headquarters leases. Our office properties are strategically located in prime business districts with excellent access to public transportation, dining, and retail amenities.

Popular locations include New York City (Manhattan), Los Angeles (Downtown and West LA), Chicago (Loop and River North), San Francisco (Financial District), and Austin (Downtown).",
   [("title", "Office Space Solutions"); ("category", "Office")]);
  ("Industrial and Warehouse Properties
        
CBRE's industrial and logistics division specializes in warehouse and distribution center properties ranging from 50,000 to over 500,000 square feet. Our facilities feature:

- Clear heights of 28-36 feet
- Multiple dock-high loading doors
- ESFR sprinkler systems
- LED lighting throughout
- Proximity to major highways and interstates
- Rail access available at select locations

These properties are ideal for e-commerce fulfillment, manufacturing, cold storage, and third-party logistics operations. Major industrial markets include the Inland Empire (California), Dallas-Fort Worth, Atlanta, Chicago, and New Jersey.",
   [("title", "Industrial Properties"); ("category", "Industrial")]);
  ("2024 Commercial Real Estate Market Trends
        
The commercial real estate market in 2024 shows strong performance in several key areas:

Office Market: Hybrid work models continue to drive demand for flexible, amenity-rich office spaces. Flight to quality remains a dominant trend, with tenants seeking Class A properties with modern technology infrastructure.

Industrial Sector: E-commerce growth fuels continued demand for last-mile distribution facilities. Industrial vacancy rates remain at historic lows in top-tier markets.

Investment Activity: Cap rates have stabilized after the 2023 adjustment period. Institutional investors are actively seeking core assets in primary markets.

Technology Impact: PropTech adoption accelerates, with smart building systems, AI-powered property management, and virtual touring becoming standard offerings.",
   [("title", "2024 Market Trends"); ("category", "Market Analysis")]);
  ("CBRE Retail Properties
        
Our retail division manages shopping centers, lifestyle centers, and mixed-use developments across the country. Properties range from neighborhood strip centers to regional malls and premium outlet centers.

Key Features:
- High-traffic locations with excellent visibility
- Co-tenancy with national and regional retailers
- Ample parking with modern amenities
- Common area maintenance programs
- Marketing and promotional support

Retail trends show strong performance for experiential retail, dining, and entertainment concepts. Grocery-anchored centers and medical office adjacencies continue to attract stable traffic.",
   [("title", "Retail Properties"); ("category", "Retail")]);
  ("CBRE Leasing Services
        
CBRE provides comprehensive tenant representation and landlord representation services:

Tenant Representation:
- Market analysis and site selection
- Lease negotiation and documentation
- Space planning and design coordination
- Move management services

Landlord Representation:
- Property marketing and positioning
- Tenant prospecting and outreach
- Lease structuring and negotiation
- Portfolio management

Our team of experienced brokers provides market insights, financial analysis, and strategic advice to optimize real estate decisions. We serve clients across all property types and markets nationwide.",
   [("title", "Leasing Services"); ("category", "Services")]);
  ("Commercial Real Estate Investment Analysis
        
When evaluating commercial real estate investments, CBRE considers several key metrics:

Cap Rate: Net operating income divided by property value. Current market cap rates range from 4-5% for Class A office to 5-7% for industrial properties.

Cash-on-Cash Return: Annual pre-tax cash flow divided by total cash invested. Target returns typically range from 7-12% depending on asset class and risk profile.

Internal Rate of Return (IRR): Time-weighted return considering all cash flows. Institutional investors typically target 12-18% IRR for value-add strategies.

Occupancy and Tenant Quality: Stable, creditworthy tenants with long-term leases reduce risk and enhance property value.

Location Factors: Proximity to labor pools, transportation infrastructure, and amenities directly impacts property performance and appreciation potential.",
   [("title", "Investment Analysis"); ("category", "Investment")])
].

(** [documents], ingest_data.py lines 129-136. *)
Definition documents : list Document :=
  map (fun doc => mkDocument (fst doc) (snd doc)) sample_documents.

(** The arguments [text_splitter] is built with, lines 139-143. *)
Record RecursiveCharacterTextSplitter : Type := mkSplitter {
  chunk_size : Z;
  chunk_overlap : Z;
  separators : list string
}.

Definition text_splitter : RecursiveCharacterTextSplitter :=
  mkSplitter 500 50 [LF ++ LF; LF; ". "; " "; ""].

(** An entry of the collection: a chunk under its generated id. *)
Record Entry : Type := mkEntry {
  entry_id : string;
  entry_chunk : Document
}.

Definition Collection : Type := list Entry.

Definition has_id (id : string) (db : Collection) : bool :=
  existsb (String.eqb id) (map entry_id db).

(** Modelled from the spec: the vector store's [count()], whose code is
    Chroma's and not part of the repository; "number of entries currently
    persisted". *)
Definition count (db : Collection) : nat := List.length db.

(** Modelled from the spec: the vector store's [add], whose code is
    Chroma's and not part of the repository; each chunk, in order, is
    written as a new entry under "a fresh unique id".  Which id is not
    determined, so adding is a relation between the collection before and
    the collection after. *)
Inductive add_documents : Collection -> list Document -> Collection -> Prop :=
| add_done (db : Collection) : add_documents db [] db
| add_chunk (db db' : Collection) (id : string) (chunk : Document)
    (chunks : list Document) :
    has_id id db = false ->
    add_documents (db ++ [mkEntry id chunk])%list chunks db' ->
    add_documents db (chunk :: chunks) db'.

(** The same, for ids handed in from outside: [ids] are usable when they
    are pairwise distinct and none is an id of [db] already. *)
Fixpoint usable_ids (taken : list string) (ids : list string) : bool :=
  match ids with
  | [] => true
  | id :: rest =>
      negb (existsb (String.eqb id) taken) && usable_ids (taken ++ [id])%list rest
  end.

Fixpoint add_with_ids (db : Collection) (ids : list string)
  (chunks : list Document) : Collection :=
  match ids, chunks with
  | id :: ids', chunk :: chunks' =>
      add_with_ids (db ++ [mkEntry id chunk])%list ids' chunks'
  | _, _ => db
  end.

(** An id of [n] letters; long enough, it is new to any collection. *)
Fixpoint letters (n : nat) : string :=
  match n with
  | O => EmptyString
  | S n' => String "x"%char (letters n')
  end.

(** One run of the script against the collection [db] found under
    [./chroma_db], for a given behaviour [split_documents] of langchain's
    splitter: the collection it leaves, the number of chunks it reports
    (line 156) and the total it reports (line 157). *)
Definition ingest_data
  (split_documents :
     RecursiveCharacterTextSplitter -> list Document -> list Document)
  (db db' : Collection) (reported_chunks reported_total : nat) : Prop :=
  let chunks := split_documents text_splitter documents in
  add_documents db chunks db' /\
  reported_chunks = List.length chunks /\
  reported_total = count db'.

End Ingest.

(** ** Concrete stores and requests used as test inputs *)
Module Samples.
Import Py Main.

Definition NOW : string := "2024-05-01T12:00:00".

(** A collection of one entry whose search raises. *)
Definition unreadable_store : Chroma :=
  mkChroma (Ok 1%Z) (fun _ _ => Raise "database is locked").

(** A collection whose [count()] raises. *)
Definition uncountable_store : Chroma :=
  mkChroma (Raise "no such table: collections") (fun _ _ => Ok []).

(** An empty collection; its search would raise if it were called. *)
Definition empty_store : Chroma :=
  mkChroma (Ok 0%Z) (fun _ _ => Raise "index not built").

(** A collection holding the given texts in order; the search returns the
    first [k] of them whatever the query. *)
Definition store_of (texts : list string) : Chroma :=
  mkChroma (Ok (Z.of_nat (List.length texts)))
    (fun _ k => Ok (map (fun t => mkDocument t []) (firstn (Z.to_nat k) texts))).

(** A collection whose only chunk is, word for word, the text [chat]
    uses as context for an empty database. *)
Definition sentinel_store : Chroma := store_of [NO_DOCUMENTS].

Definition empty_query_body : Body := mkBody (Present "") Missing.

Definition alice_history : list Message :=
  [mkMessage "user" "Hello"; mkMessage "assistant" "Hi, how can I help?"].

(** A collection holding the six sample documents unsplit. *)
Definition sample_store : Chroma := store_of (map fst Ingest.sample_documents).

(** A splitter that leaves every document whole. *)
Definition no_split (_ : Ingest.RecursiveCharacterTextSplitter)
  (docs : list Document) : list Document := docs.

Definition first_run_ids : list string :=
  ["3f2a"; "9c1d"; "b7e0"; "04aa"; "d5f3"; "61c8"].

Definition second_run_ids : list string :=
  ["e1"; "e2"; "e3"; "e4"; "e5"; "e6"].

Definition office_request : ChatRequest :=
  mkChatRequest "office space in Chicago" (Some []).

Definition followup_request : ChatRequest :=
  mkChatRequest "office space in Chicago" (Some alice_history).

Definition warehouse_request : ChatRequest :=
  mkChatRequest "warehouse near a highway" None.

End Samples.

(** ** Facts about slicing and joining *)
Module PyFacts.
Import Py.

Lemma slice_to_length (n : nat) (s : string) :
  String.length (slice_to n s) = Nat.min n (String.length s).
Proof.
  revert s; induction n as [|n IH]; intros [|c s]; simpl; auto.
Qed.

Lemma slice_to_bound (n : nat) (s : string) :
  String.length (slice_to n s) <= n.
Proof. rewrite slice_to_length; apply Nat.le_min_l. Qed.

Lemma slice_to_prefix (n : nat) (s : string) :
  String.prefix (slice_to n s) s = true.
Proof.
  revert s; induction n as [|n IH]; intros [|c s]; simpl; auto.
  destruct (ascii_dec c c) as [_|ne]; [apply IH | now elim ne].
Qed.

Lemma slice_to_short (n : nat) (s : string) :
  String.length s <= n -> slice_to n s = s.
Proof.
  revert s; induction n as [|n IH]; intros [|c s]; simpl; intros H;
    try reflexivity; try lia.
  f_equal; apply IH; lia.
Qed.

(** A slice is what Stdlib calls [substring 0 n]. *)
Lemma slice_to_substring (n : nat) (s : string) :
  slice_to n s = substring 0 n s.
Proof.
  revert s; induction n as [|n IH]; intros [|c s]; simpl; auto.
  now rewrite IH.
Qed.

Lemma truthy_false_iff (s : string) : truthy s = false <-> s = "".
Proof. destruct s; simpl; split; congruence. Qed.

Lemma append_nil_r (s : string) : s ++ "" = s.
Proof. induction s; simpl; congruence. Qed.

Lemma append_length (s t : string) :
  String.length (s ++ t) = String.length s + String.length t.
Proof. induction s; simpl; auto. Qed.

Lemma append_assoc (s t u : string) : (s ++ t) ++ u = s ++ t ++ u.
Proof. induction s; simpl; congruence. Qed.

(** [join] of a singleton is the element; of nothing, the empty string. *)
Lemma join_cons2 (sep p q : string) (rest : list string) :
  join sep (p :: q :: rest) = p ++ sep ++ join sep (q :: rest).
Proof. reflexivity. Qed.

(** [join] agrees with Stdlib's [String.concat]. *)
Lemma join_concat (sep : string) (parts : list string) :
  join sep parts = String.concat sep parts.
Proof.
  induction parts as [|p [|q rest] IH]; reflexivity.
Qed.

End PyFacts.

(** ** The chat endpoint *)
Module MainFacts.
Import Py PyFacts Main Samples.

Lemma templated_not_fallback (context : string) :
  PREFIX ++ slice_to 500 context ++ SUFFIX <> FALLBACK.
Proof. unfold PREFIX, FALLBACK; simpl; discriminate. Qed.

Lemma generate_response_eq (query context : string) :
  generate_response query context =
    if (context =? "") || (context =? NO_DOCUMENTS)
    then FALLBACK
    else PREFIX ++ slice_to 500 context ++ SUFFIX.
Proof.
  unfold generate_response.
  destruct context as [|c s]; [reflexivity|].
  change (String c s =? "") with false.
  destruct (String c s =? NO_DOCUMENTS); reflexivity.
Qed.

(** The four ways through [chat]. *)
Lemma chat_no_store (now : string) (request : ChatRequest) :
  chat None now request = Reply200 (mkChatResponse FALLBACK [] now).
Proof. reflexivity. Qed.

Lemma chat_count_raises (vs : Chroma) (now e : string) (request : ChatRequest) :
  collection_count vs = Raise e ->
  chat (Some vs) now request = HTTPException 500 ("Error: " ++ e).
Proof. intros H; unfold chat, chat_body; rewrite H; reflexivity. Qed.

Lemma chat_count_not_positive (vs : Chroma) (now : string) (n : Z)
  (request : ChatRequest) :
  collection_count vs = Ok n -> (n <= 0)%Z ->
  chat (Some vs) now request = Reply200 (mkChatResponse FALLBACK [] now).
Proof.
  intros H Hn; unfold chat, chat_body; rewrite H; cbn [bind].
  destruct (Z.gtb_spec n 0) as [Hp|_]; [lia | reflexivity].
Qed.

Lemma chat_search_raises (vs : Chroma) (now e : string) (n : Z)
  (request : ChatRequest) :
  collection_count vs = Ok n -> (n > 0)%Z ->
  similarity_search vs (query request) 3 = Raise e ->
  chat (Some vs) now request =
    Reply200 (mkChatResponse (PREFIX ++ NO_RELEVANT ++ SUFFIX) [] now).
Proof.
  intros H Hn Hs; unfold chat, chat_body; rewrite H; cbn [bind].
  destruct (Z.gtb_spec n 0) as [_|Hp]; [|lia].
  rewrite Hs; reflexivity.
Qed.

Lemma chat_search_returns (vs : Chroma) (now : string) (n : Z)
  (results : list Document) (request : ChatRequest) :
  collection_count vs = Ok n -> (n > 0)%Z ->
  similarity_search vs (query request) 3 = Ok results ->
  chat (Some vs) now request =
    Reply200 (mkChatResponse
                (generate_response (query request) (context_of results))
                (map source_of results) now).
Proof.
  intros H Hn Hs; unfold chat, chat_body; rewrite H; cbn [bind].
  destruct (Z.gtb_spec n 0) as [_|Hp]; [|lia].
  rewrite Hs; reflexivity.
Qed.

(** [chat] always answers: with a response, or with status 500. *)
Lemma chat_total (vectorstore : option Chroma) (now : string)
  (request : ChatRequest) :
  (exists r, chat vectorstore now request = Reply200 r) \/
  (exists vs e, vectorstore = Some vs /\ collection_count vs = Raise e /\
     chat vectorstore now request = HTTPException 500 ("Error: " ++ e)).
Proof.
  destruct vectorstore as [vs|]; [|left; eexists; apply chat_no_store].
  destruct (collection_count vs) as [n|e] eqn:Hc.
  - left. destruct (Z_gt_le_dec n 0) as [Hp|Hp].
    + destruct (similarity_search vs (query request) 3) as [results|e] eqn:Hs.
      * eexists; eapply chat_search_returns; eauto.
      * eexists; eapply chat_search_raises; eauto.
    + eexists; eapply chat_count_not_positive; eauto.
  - right; exists vs, e; repeat split; try assumption.
    now apply chat_count_raises.
Qed.

(** Of the store, [chat] sees the size of the collection and the search
    for the request's query with [k = 3], nothing else. *)
Lemma chat_reads_count_and_top3 (vs1 vs2 : Chroma) (now : string)
  (request : ChatRequest) :
  collection_count vs1 = collection_count vs2 ->
  similarity_search vs1 (query request) 3 =
    similarity_search vs2 (query request) 3 ->
  chat (Some vs1) now request = chat (Some vs2) now request.
Proof.
  intros Hc Hs; unfold chat, chat_body; rewrite Hc, Hs; reflexivity.
Qed.

(** The reply depends on the request only through its query text. *)
Lemma chat_body_query_only (vectorstore : option Chroma) (now : string)
  (q : string) (h1 h2 : option (list Message)) :
  chat vectorstore now (mkChatRequest q h1) =
  chat vectorstore now (mkChatRequest q h2).
Proof. reflexivity. Qed.

Lemma chat_timestamp_only (vectorstore : option Chroma) (now1 now2 : string)
  (request : ChatRequest) :
  without_timestamp (chat vectorstore now1 request) =
  without_timestamp (chat vectorstore now2 request).
Proof.
  unfold chat, chat_body.
  destruct vectorstore as [vs|]; [|reflexivity].
  destruct (collection_count vs) as [n|e]; [|reflexivity]; cbn [bind].
  destruct (n >? 0)%Z; [|reflexivity].
  destruct (similarity_search vs (query request) 3); reflexivity.
Qed.

(** *** The claims about the chat endpoint *)

(** C3: [generate_response] returns the fallback string exactly when its
    context is empty or equal to the sentinel
    ["No documents in database yet. Using general knowledge."]; for every
    other context, the one set after a failed search included, it returns
    the template around the first 500 characters of the context. *)
Theorem generate_response_fallback_iff (query context : string) :
  (generate_response query context = FALLBACK <->
     context = "" \/ context = NO_DOCUMENTS) /\
  (generate_response query context = FALLBACK \/
   generate_response query context =
     PREFIX ++ slice_to 500 context ++ SUFFIX) /\
  generate_response query NO_RELEVANT = PREFIX ++ NO_RELEVANT ++ SUFFIX.
Proof.
  split; [|split; [|reflexivity]].
  - rewrite generate_response_eq.
    destruct (context =? "") eqn:E0; cbn [orb].
    + apply String.eqb_eq in E0; tauto.
    + destruct (context =? NO_DOCUMENTS) eqn:E1.
      * apply String.eqb_eq in E1; tauto.
      * apply String.eqb_neq in E0, E1. split.
        -- intros H; now apply templated_not_fallback in H.
        -- tauto.
  - rewrite generate_response_eq.
    destruct ((context =? "") || (context =? NO_DOCUMENTS)); auto.
Qed.

(** C1, refuted as stated: with one entry in the collection and a search
    that raises, the request succeeds but its text is not the fallback
    string. *)
Lemma search_failure_is_not_fallback :
  collection_count unreadable_store = Ok 1%Z /\
  similarity_search unreadable_store (query office_request) 3 =
    Raise "database is locked" /\
  exists r, chat (Some unreadable_store) NOW office_request = Reply200 r /\
            response r <> FALLBACK.
Proof.
  repeat split. eexists; split; [reflexivity|].
  cbn [response]; apply (templated_not_fallback NO_RELEVANT).
Qed.

(** C1, amended: against a non-empty store, when the similarity search
    raises, the request does not fail; the response text is the template
    filled with ["No relevant documents found."] and the sources are
    empty. *)
Theorem search_failure_recovered (vs : Chroma) (now e : string) (n : Z)
  (request : ChatRequest) :
  collection_count vs = Ok n -> (n > 0)%Z ->
  similarity_search vs (query request) 3 = Raise e ->
  chat (Some vs) now request =
    Reply200 (mkChatResponse
      ("Based on CBRE's information: No relevant documents found." ++ SUFFIX)
      [] now).
Proof. exact (chat_search_raises vs now e n request). Qed.

Lemma search_failure_recovered_witness :
  chat (Some unreadable_store) NOW office_request =
    Reply200 (mkChatResponse
      ("Based on CBRE's information: No relevant documents found." ++ SUFFIX)
      [] NOW).
Proof.
  apply (search_failure_recovered unreadable_store NOW "database is locked" 1);
    [reflexivity | lia | reflexivity].
Defined.




Lemma parse_ChatRequest_none (b : Body) :
  parse_ChatRequest b = None <-> body_query b = Missing \/ body_query b = Null.
Proof.
  unfold parse_ChatRequest; destruct (body_query b); split;
    intros H; try tauto; try discriminate; destruct H; discriminate.
Qed.

(** C2, refuted as stated: a body whose query is the empty string is
    validated and answered, and a well-formed request fails with status
    500 when counting the collection raises. *)
Lemma empty_query_is_answered :
  post_chat None NOW empty_query_body =
    Reply200 (mkChatResponse FALLBACK [] NOW) /\
  post_chat (Some uncountable_store) NOW
      (mkBody (Present "office space in Chicago") Missing) =
    HTTPException 500 "Error: no such table: collections".
Proof. split; reflexivity. Qed.

(** C2, amended: a request is rejected as invalid exactly when its query
    is absent or null (an empty query string is accepted and answered
    like any other); a request with a query fails hard, with status 500,
    exactly when counting the collection raises; a search that raises
    never fails the request. *)
Theorem hard_failures (vectorstore : option Chroma) (now : string) (b : Body) :
  (post_chat vectorstore now b = RequestValidationError <->
     body_query b = Missing \/ body_query b = Null) /\
  (forall status detail,
     post_chat vectorstore now b = HTTPException status detail <->
     exists q vs e,
       body_query b = Present q /\ vectorstore = Some vs /\
       collection_count vs = Raise e /\
       status = 500%Z /\ detail = "Error: " ++ e) /\
  (forall q vs n,
     body_query b = Present q -> vectorstore = Some vs ->
     collection_count vs = Ok n ->
     exists r, post_chat vectorstore now b = Reply200 r).
Proof.
  unfold post_chat.
  destruct (parse_ChatRequest b) as [request|] eqn:Hp.
  - assert (Hq : exists q, body_query b = Present q).
    { unfold parse_ChatRequest in Hp.
      destruct (body_query b); try discriminate; eauto. }
    destruct Hq as [q Hq].
    destruct (chat_total vectorstore now request)
      as [[r Hr]|(vs & e & Hv & Hc & Hr)]; rewrite Hr.
    + split; [|split].
      * rewrite Hq; split; [discriminate | intros [H|H]; discriminate].
      * intros status detail; split; [discriminate|].
        intros (q' & vs & e & _ & Hv & Hc & _ & _); subst vectorstore.
        rewrite (chat_count_raises vs now e request Hc) in Hr; discriminate.
      * eauto.
    + split; [|split].
      * rewrite Hq; split; [discriminate | intros [H|H]; discriminate].
      * intros status detail; split.
        -- intros H; injection H as <- <-. exists q, vs, e; auto.
        -- intros (q' & vs' & e' & _ & Hv' & Hc' & -> & ->).
           rewrite Hv in Hv'; injection Hv' as <-.
           rewrite Hc in Hc'; injection Hc' as <-. reflexivity.
      * intros q' vs' n _ Hv' Hc'.
        rewrite Hv in Hv'; injection Hv' as <-. congruence.
  - apply parse_ChatRequest_none in Hp. split; [|split].
    + tauto.
    + intros status detail; split; [discriminate|].
      intros (q & _ & _ & Hq & _); destruct Hp as [H|H]; congruence.
    + intros q vs n Hq; destruct Hp as [H|H]; congruence.
Qed.

Lemma context_of_sources (results : list Document) :
  Forall2
    (fun doc src =>
       exists head, src = head ++ "..." /\
         String.prefix head (page_content doc) = true /\
         String.length head = Nat.min 150 (String.length (page_content doc)))
    results (map source_of results).
Proof.
  induction results as [|doc rest IH]; constructor; [|exact IH].
  exists (slice_to 150 (page_content doc)); repeat split.
  - apply slice_to_prefix.
  - apply slice_to_length.
Qed.

(** C5, refuted as stated: a collection whose one chunk reads exactly
    like the empty-database sentinel is searched successfully, yet the
    response is the fallback string and not the template. *)
Lemma sentinel_chunk_yields_fallback :
  collection_count sentinel_store = Ok 1%Z /\
  similarity_search sentinel_store (query office_request) 3 =
    Ok [mkDocument NO_DOCUMENTS []] /\
  chat (Some sentinel_store) NOW office_request =
    Reply200 (mkChatResponse FALLBACK [NO_DOCUMENTS ++ "..."] NOW) /\
  FALLBACK <>
    PREFIX ++ slice_to 500 (context_of [mkDocument NO_DOCUMENTS []]) ++ SUFFIX.
Proof.
  repeat split.
  intros H; symmetry in H; revert H; apply templated_not_fallback.
Qed.

(** C5, amended: against a non-empty store, when the search (called with
    k = 3) returns, the context is the retrieved texts in order joined by
    a blank line and, provided that context is neither empty nor exactly
    the empty-database sentinel, the response text is the fixed prefix,
    the first 500 characters of the context (all of it when shorter) and
    the fixed suffix. *)
Theorem templated_response (vs : Chroma) (now : string) (n : Z)
  (results : list Document) (request : ChatRequest) :
  collection_count vs = Ok n -> (n > 0)%Z ->
  similarity_search vs (query request) 3 = Ok results ->
  let context := join (LF ++ LF) (map page_content results) in
  context <> "" -> context <> NO_DOCUMENTS ->
  exists r shown,
    chat (Some vs) now request = Reply200 r /\
    response r = PREFIX ++ shown ++ SUFFIX /\
    String.prefix shown context = true /\
    String.length shown = Nat.min 500 (String.length context).
Proof.
  intros Hc Hn Hs context H0 H1.
  eexists; exists (slice_to 500 context); split; [|split; [|split]].
  - apply (chat_search_returns vs now n results request Hc Hn Hs).
  - cbn [response]; change (context_of results) with context.
    rewrite generate_response_eq.
    apply String.eqb_neq in H0, H1; rewrite H0, H1; reflexivity.
  - apply slice_to_prefix.
  - apply slice_to_length.
Qed.

(** C6: against a non-empty store, when the search returns, the sources
    are, in retrieval order, the retrieved texts each cut to its first
    150 characters and followed by ["..."]. *)
Theorem sources_truncated (vs : Chroma) (now : string) (n : Z)
  (results : list Document) (request : ChatRequest) :
  collection_count vs = Ok n -> (n > 0)%Z ->
  similarity_search vs (query request) 3 = Ok results ->
  exists r,
    chat (Some vs) now request = Reply200 r /\
    sources r =
      map (fun doc => slice_to 150 (page_content doc) ++ "...") results /\
    Forall2
      (fun doc src =>
         exists head, src = head ++ "..." /\
           String.prefix head (page_content doc) = true /\
           String.length head = Nat.min 150 (String.length (page_content doc)))
      results (sources r).
Proof.
  intros Hc Hn Hs; eexists; split; [|split].
  - apply (chat_search_returns vs now n results request Hc Hn Hs).
  - reflexivity.
  - apply context_of_sources.
Qed.

(** C10: two requests with the same query text, evaluated against the
    same store, get the same response text and the same sources (or the
    same failure), whatever their conversation histories. *)
Theorem history_ignored (vectorstore : option Chroma) (now1 now2 : string)
  (request1 request2 : ChatRequest) :
  query request1 = query request2 ->
  without_timestamp (chat vectorstore now1 request1) =
    without_timestamp (chat vectorstore now2 request2) /\
  (forall r1, chat vectorstore now1 request1 = Reply200 r1 ->
     exists r2, chat vectorstore now2 request2 = Reply200 r2 /\
       response r1 = response r2 /\ sources r1 = sources r2).
Proof.
  destruct request1 as [q h1], request2 as [q2 h2]; cbn [query].
  intros <-.
  assert (E : without_timestamp (chat vectorstore now1 (mkChatRequest q h1)) =
              without_timestamp (chat vectorstore now2 (mkChatRequest q h2))).
  { rewrite (chat_body_query_only vectorstore now1 q h1 h2).
    apply chat_timestamp_only. }
  split; [exact E|].
  intros r1 H1; rewrite H1 in E.
  destruct (chat vectorstore now2 (mkChatRequest q h2)) as [r2| |c d];
    try discriminate.
  exists r2; split; [reflexivity|].
  cbn [without_timestamp] in E; injection E as -> ->; auto.
Qed.

Lemma templated_response_witness :
  exists r shown,
    chat (Some sample_store) NOW office_request = Reply200 r /\
    response r = PREFIX ++ shown ++ SUFFIX /\
    String.prefix shown
      (join (LF ++ LF)
         (map page_content
            (map (fun t => mkDocument t []) (firstn 3 (map fst Ingest.sample_documents)))))
      = true /\
    String.length shown = 500.
Proof.
  apply (templated_response sample_store NOW 6
           (map (fun t => mkDocument t []) (firstn 3 (map fst Ingest.sample_documents)))
           office_request);
    [reflexivity | lia | reflexivity | discriminate | discriminate].
Defined.

Lemma sources_truncated_witness :
  exists r,
    chat (Some sample_store) NOW office_request = Reply200 r /\
    sources r =
      map (fun doc => slice_to 150 (page_content doc) ++ "...")
        (map (fun t => mkDocument t []) (firstn 3 (map fst Ingest.sample_documents))) /\
    Forall2
      (fun doc src =>
         exists head, src = head ++ "..." /\
           String.prefix head (page_content doc) = true /\
           String.length head = Nat.min 150 (String.length (page_content doc)))
      (map (fun t => mkDocument t []) (firstn 3 (map fst Ingest.sample_documents)))
      (sources r).
Proof.
  apply (sources_truncated sample_store NOW 6
           (map (fun t => mkDocument t []) (firstn 3 (map fst Ingest.sample_documents)))
           office_request);
    [reflexivity | lia | reflexivity].
Defined.

Lemma history_ignored_witness :
  without_timestamp (chat (Some sample_store) NOW office_request) =
    without_timestamp
      (chat (Some sample_store) "2024-05-02T08:30:00" followup_request) /\
  (forall r1, chat (Some sample_store) NOW office_request = Reply200 r1 ->
     exists r2,
       chat (Some sample_store) "2024-05-02T08:30:00" followup_request =
         Reply200 r2 /\
       response r1 = response r2 /\ sources r1 = sources r2).
Proof.
  apply (history_ignored (Some sample_store) NOW "2024-05-02T08:30:00"
           office_request followup_request); reflexivity.
Defined.

End MainFacts.

(** ** The ingestion script *)
Module IngestFacts.
Import Py Main Ingest Samples.
Local Open Scope list_scope.

Lemma has_id_false (id : string) (db : Collection) :
  has_id id db = false <-> ~ In id (map entry_id db).
Proof.
  unfold has_id; split.
  - intros H Hin.
    assert (E : existsb (String.eqb id) (map entry_id db) = true).
    { apply existsb_exists; exists id; split; [exact Hin | apply String.eqb_refl]. }
    congruence.
  - intros H; destruct (existsb (String.eqb id) (map entry_id db)) eqn:E; auto.
    apply existsb_exists in E; destruct E as (x & Hin & Hx).
    apply String.eqb_eq in Hx; subst x; contradiction.
Qed.

(** Adding is append-only: the old entries stay in place and the new
    ones carry the chunks in order. *)
Lemma add_documents_appends (db db' : Collection) (chunks : list Document) :
  add_documents db chunks db' ->
  exists new, db' = db ++ new /\ map entry_chunk new = chunks.
Proof.
  induction 1 as [db | db db' id chunk chunks Hfresh _ IH].
  - exists []; split; [now rewrite app_nil_r | reflexivity].
  - destruct IH as (new & -> & Hnew).
    exists (mkEntry id chunk :: new); split.
    + now rewrite <- app_assoc.
    + simpl; now rewrite Hnew.
Qed.

Lemma add_documents_count (db db' : Collection) (chunks : list Document) :
  add_documents db chunks db' ->
  count db' = count db + List.length chunks.
Proof.
  intros H; apply add_documents_appends in H; destruct H as (new & -> & <-).
  unfold count; now rewrite length_app, length_map.
Qed.

(** Ids never collide within a collection built by adding. *)
Lemma add_documents_nodup (db db' : Collection) (chunks : list Document) :
  add_documents db chunks db' ->
  NoDup (map entry_id db) -> NoDup (map entry_id db').
Proof.
  induction 1 as [db | db db' id chunk chunks Hfresh _ IH]; intros Hnd; auto.
  apply IH; rewrite map_app; cbn [map entry_id].
  apply has_id_false in Hfresh.
  apply NoDup_app; repeat split; auto.
  - constructor; [intros [] | constructor].
  - intros x Hx [<-|[]]; contradiction.
Qed.

Lemma add_with_ids_sound (ids : list string) :
  forall (db : Collection) (chunks : list Document),
    usable_ids (map entry_id db) ids = true ->
    List.length ids = List.length chunks ->
    add_documents db chunks (add_with_ids db ids chunks).
Proof.
  induction ids as [|id ids IH]; intros db [|chunk chunks] Hu Hl;
    try discriminate; cbn [add_with_ids]; [constructor|].
  cbn [usable_ids] in Hu; apply andb_true_iff in Hu; destruct Hu as [Hf Hu].
  apply add_chunk with (id := id).
  - unfold has_id; now apply negb_true_iff.
  - apply IH; [|now injection Hl].
    rewrite map_app; exact Hu.
Qed.

Lemma letters_length (n : nat) : String.length (letters n) = n.
Proof. induction n; simpl; congruence. Qed.

(** There is always an id left. *)
Lemma fresh_id_exists (db : Collection) : exists id, has_id id db = false.
Proof.
  set (longest := list_max (map String.length (map entry_id db))).
  exists (letters (S longest)); apply has_id_false; intros Hin.
  assert (Hall : Forall (fun k => k <= longest) (map String.length (map entry_id db)))
    by (apply list_max_le; apply Nat.le_refl).
  rewrite Forall_forall in Hall.
  specialize (Hall (String.length (letters (S longest)))
                (in_map String.length _ _ Hin)).
  rewrite letters_length in Hall; lia.
Qed.

(** Adding always succeeds in the model. *)
Lemma add_documents_total (chunks : list Document) :
  forall db, exists db', add_documents db chunks db'.
Proof.
  induction chunks as [|chunk chunks IH]; intros db.
  - exists db; constructor.
  - destruct (fresh_id_exists db) as [id Hid].
    destruct (IH (db ++ [mkEntry id chunk])) as [db' Hdb'].
    exists db'; now apply add_chunk with (id := id).
Qed.

Section Run.

Variable split_documents :
  RecursiveCharacterTextSplitter -> list Document -> list Document.

(** The script runs to completion against any collection. *)
Lemma ingest_data_runs (db : Collection) :
  exists db' reported_chunks reported_total,
    ingest_data split_documents db db' reported_chunks reported_total.
Proof.
  destruct (add_documents_total (split_documents text_splitter documents) db)
    as [db' H].
  exists db', (List.length (split_documents text_splitter documents)), (count db').
  repeat split; assumption.
Qed.

Lemma ingest_data_total_is (db db' : Collection) (reported_chunks reported_total : nat) :
  ingest_data split_documents db db' reported_chunks reported_total ->
  reported_total = count db + reported_chunks.
Proof.
  intros (Hadd & -> & ->); now apply add_documents_count.
Qed.

(** Run against the collection a first run left, the script adds its
    chunks once more. *)
Lemma ingest_data_accumulates (db1 db2 : Collection) (c1 t1 c2 t2 : nat) :
  ingest_data split_documents [] db1 c1 t1 ->
  ingest_data split_documents db1 db2 c2 t2 ->
  t2 = 2 * t1.
Proof.
  intros H1 H2.
  pose proof (ingest_data_total_is _ _ _ _ H1) as E1.
  pose proof (ingest_data_total_is _ _ _ _ H2) as E2.
  destruct H1 as (_ & -> & Ht1), H2 as (_ & -> & _).
  rewrite <- Ht1 in E2. cbn [count List.length] in E1. lia.
Qed.

(** C9: two runs of the ingestion, each against a fresh (empty)
    collection, report the same final [count()], namely the number of
    chunks, whatever ids the store hands out. *)
Theorem ingestion_count_deterministic (db1 db2 : Collection)
  (c1 t1 c2 t2 : nat) :
  ingest_data split_documents [] db1 c1 t1 ->
  ingest_data split_documents [] db2 c2 t2 ->
  t1 = t2 /\ count db1 = count db2 /\
  t1 = List.length (split_documents text_splitter documents).
Proof.
  intros H1 H2.
  pose proof (ingest_data_total_is _ _ _ _ H1) as E1.
  pose proof (ingest_data_total_is _ _ _ _ H2) as E2.
  destruct H1 as (_ & -> & ->), H2 as (_ & -> & ->).
  cbn [count List.length] in E1, E2.
  repeat split; try assumption; unfold count in *; lia.
Qed.

End Run.

Lemma ingestion_count_deterministic_witness :
  6 = 6 /\
  count (add_with_ids [] first_run_ids documents) =
    count (add_with_ids [] second_run_ids documents) /\
  6 = List.length (no_split text_splitter documents).
Proof.
  apply (ingestion_count_deterministic no_split
           (add_with_ids [] first_run_ids documents)
           (add_with_ids [] second_run_ids documents) 6 6 6 6).
  - repeat split. apply add_with_ids_sound; reflexivity.
  - repeat split. apply add_with_ids_sound; reflexivity.
Defined.

End IngestFacts.

(** ** Further properties of main.py: bounds, edge cases, and how the
       health route, the start-up and the chat route fit together *)
Module ServiceFacts.
Import Py PyFacts Main Samples MainFacts.

Lemma slice_to_app_long (n : nat) (s t : string) :
  n <= String.length s -> slice_to n (s ++ t) = slice_to n s.
Proof.
  revert s; induction n as [|n IH]; intros [|c s]; simpl; intros H;
    try reflexivity; try lia.
  f_equal; apply IH; lia.
Qed.

Lemma has_char_app (c : ascii) (s t : string) :
  has_char c (s ++ t) = has_char c s || has_char c t.
Proof.
  induction s as [|c' s IH]; simpl; [reflexivity|].
  now rewrite IH, orb_assoc.
Qed.

(** The joined context starts with the first text. *)
Lemma context_of_cons (doc : Document) (rest : list Document) :
  exists tail, context_of (doc :: rest) = page_content doc ++ tail.
Proof.
  unfold context_of; destruct rest as [|doc' rest]; cbn [map join].
  - exists ""; now rewrite append_nil_r.
  - eexists; reflexivity.
Qed.

(** Two or more texts are joined around line feeds. *)
Lemma context_of_two_has_LF (doc doc' : Document) (rest : list Document) :
  has_char "010" (context_of (doc :: doc' :: rest)) = true.
Proof.
  unfold context_of; cbn [map]; rewrite join_cons2, !has_char_app.
  change (has_char "010" (LF ++ LF)) with true.
  now rewrite orb_true_r.
Qed.

Lemma error_detail_inj (e e' : string) :
  "Error: " ++ e = "Error: " ++ e' -> e = e'.
Proof. simpl; intros H; now injection H. Qed.

(** Whatever [chat] returns, its text is [generate_response] of some
    context and its sources are cut texts. *)
Lemma chat_reply_shape (vectorstore : option Chroma) (now : string)
  (request : ChatRequest) (r : ChatResponse) :
  chat vectorstore now request = Reply200 r ->
  exists context results,
    r = mkChatResponse (generate_response (query request) context)
          (map source_of results) now.
Proof.
  unfold chat, chat_body.
  destruct vectorstore as [vs|];
    [|intros H; injection H as <-; now exists NO_DOCUMENTS, []].
  destruct (collection_count vs) as [n|e]; [|discriminate]; cbn [bind].
  destruct (n >? 0)%Z;
    [|intros H; injection H as <-; now exists NO_DOCUMENTS, []].
  destruct (similarity_search vs (query request) 3) as [results|e];
    intros H; injection H as <-.
  - now exists (context_of results), results.
  - now exists NO_RELEVANT, [].
Qed.

Lemma generate_response_length (query context : string) :
  1 <= String.length (generate_response query context) <= 588.
Proof.
  rewrite generate_response_eq.
  destruct ((context =? "") || (context =? NO_DOCUMENTS)).
  - change (String.length FALLBACK) with 150; lia.
  - rewrite !append_length.
    change (String.length PREFIX) with 29.
    change (String.length SUFFIX) with 59.
    pose proof (slice_to_bound 500 context); lia.
Qed.

Lemma source_of_shape (doc : Document) :
  exists head, source_of doc = head ++ "..." /\ String.length head <= 150.
Proof.
  exists (slice_to 150 (page_content doc)); split;
    [reflexivity | apply slice_to_bound].
Qed.

Lemma fallback_iff_context (query context : string) :
  generate_response query context = FALLBACK <->
  context = "" \/ context = NO_DOCUMENTS.
Proof.
  rewrite generate_response_eq.
  destruct (context =? "") eqn:E0; cbn [orb].
  - apply String.eqb_eq in E0; tauto.
  - destruct (context =? NO_DOCUMENTS) eqn:E1.
    + apply String.eqb_eq in E1; tauto.
    + apply String.eqb_neq in E0, E1; split; [|tauto].
      intros H; now apply templated_not_fallback in H.
Qed.

(** Which retrieved lists join to the empty string or to the sentinel. *)
Lemma context_of_degenerate (results : list Document) :
  context_of results = "" \/ context_of results = NO_DOCUMENTS <->
  results = [] \/
  exists doc, results = [doc] /\
    (page_content doc = "" \/ page_content doc = NO_DOCUMENTS).
Proof.
  destruct results as [|doc [|doc' rest]].
  - split; intros _; [now left | now left].
  - change (context_of [doc]) with (page_content doc); split.
    + intros H; right; now exists doc.
    + intros [H|(d & H & Hd)]; [discriminate | now injection H as <-].
  - pose proof (context_of_two_has_LF doc doc' rest) as HLF; split.
    + intros [H|H]; rewrite H in HLF; discriminate.
    + intros [H|(d & H & _)]; discriminate.
Qed.

(** *** Properties *)

(** X1: the health route fails exactly when the chat route fails, and on
    the same exception: [health_check] raises [e] if and only if [chat],
    for any request, answers with status 500 and detail ["Error: " + e]. *)
Theorem health_and_chat_fail_together (vectorstore : option Chroma)
  (now now' e : string) (request : ChatRequest) :
  health_check vectorstore now = Raise e <->
  chat vectorstore now' request = HTTPException 500 ("Error: " ++ e).
Proof.
  destruct vectorstore as [vs|].
  - unfold health_check; destruct (collection_count vs) as [n|e0] eqn:Hc;
      cbn [bind].
    + split; [discriminate|]; intros H.
      destruct (chat_total (Some vs) now' request)
        as [[r Hr]|(vs' & e' & Hv & Hc' & _)].
      * rewrite Hr in H; discriminate.
      * injection Hv as <-; congruence.
    + rewrite (chat_count_raises vs now' e0 request Hc); split.
      * intros H; now injection H as ->.
      * intros H; apply f_equal with (f := fun reply =>
          match reply with HTTPException _ d => d | _ => "" end) in H.
        apply error_detail_inj in H; now subst.
  - rewrite chat_no_store; split; discriminate.
Qed.

(** X2: when the health route reports that the database is not ready, or
    reports no documents, every chat request is answered with the
    fallback text and no sources. *)
Theorem no_documents_reported_means_fallback (vectorstore : option Chroma)
  (now now' : string) (report : HealthReport) (request : ChatRequest) :
  health_check vectorstore now = Ok report ->
  database_ready report = false \/ (documents_count report <= 0)%Z ->
  chat vectorstore now' request = Reply200 (mkChatResponse FALLBACK [] now').
Proof.
  destruct vectorstore as [vs|]; [|intros _ _; apply chat_no_store].
  unfold health_check; destruct (collection_count vs) as [n|e] eqn:Hc;
    cbn [bind]; [|discriminate].
  intros H; injection H as <-; cbn [database_ready documents_count].
  intros [H|H]; [discriminate|].
  now apply (chat_count_not_positive vs now' n).
Qed.

Lemma no_documents_reported_means_fallback_witness :
  chat (Some empty_store) "2024-05-02T08:30:00" followup_request =
    Reply200 (mkChatResponse FALLBACK [] "2024-05-02T08:30:00").
Proof.
  apply (no_documents_reported_means_fallback (Some empty_store) NOW
           "2024-05-02T08:30:00" (mkHealthReport "healthy" NOW true 0));
    [reflexivity | right; simpl; lia].
Defined.

(** X3: when constructing the Chroma client raises at start-up, the
    service still answers: the health route reports "healthy", database
    not ready, 0 documents, and every chat request gets the fallback text
    with no sources.  When the client was constructed, a health report
    says the database is ready and carries the collection's count. *)
Theorem setup_failure_degrades (e now : string) (request : ChatRequest) :
  health_check (init_vectorstore (Raise e)) now =
    Ok (mkHealthReport "healthy" now false 0) /\
  chat (init_vectorstore (Raise e)) now request =
    Reply200 (mkChatResponse FALLBACK [] now) /\
  (forall client report,
     health_check (init_vectorstore (Ok client)) now = Ok report ->
     database_ready report = true /\
     collection_count client = Ok (documents_count report)).
Proof.
  repeat split.
  - revert H; cbn [init_vectorstore]; unfold health_check.
    destruct (collection_count client); cbn [bind]; [|discriminate].
    intros H; now injection H as <-.
  - revert H; cbn [init_vectorstore]; unfold health_check.
    destruct (collection_count client); cbn [bind]; [|discriminate].
    intros H; now injection H as <-.
Qed.

(** X4: whatever the store holds, the text of a chat response has at
    least 1 and at most 588 characters (the 29 of the prefix, 500 of
    context, the 59 of the suffix). *)
Theorem response_length_bounded (vectorstore : option Chroma) (now : string)
  (request : ChatRequest) :
  match chat vectorstore now request with
  | Reply200 r => 1 <= String.length (response r) <= 588
  | _ => True
  end.
Proof.
  destruct (chat vectorstore now request) as [r| |c d] eqn:H; try exact I.
  apply chat_reply_shape in H; destruct H as (context & results & ->).
  apply generate_response_length.
Qed.

(** X5: when the first retrieved text has 500 characters or more, the
    response text shows the first 500 characters of that text and nothing
    of the other retrieved texts. *)
Theorem long_first_chunk_fills_response (vs : Chroma) (now : string) (n : Z)
  (first : Document) (others : list Document) (request : ChatRequest) :
  collection_count vs = Ok n -> (n > 0)%Z ->
  similarity_search vs (query request) 3 = Ok (first :: others) ->
  500 <= String.length (page_content first) ->
  exists r,
    chat (Some vs) now request = Reply200 r /\
    response r = PREFIX ++ slice_to 500 (page_content first) ++ SUFFIX.
Proof.
  intros Hc Hn Hs Hlen; eexists; split.
  - apply (chat_search_returns vs now n (first :: others) request Hc Hn Hs).
  - cbn [response]; rewrite generate_response_eq.
    destruct (context_of_cons first others) as [tail ->].
    assert (L : 500 <= String.length (page_content first ++ tail))
      by (rewrite append_length; lia).
    destruct (page_content first ++ tail =? "") eqn:E0.
    { apply String.eqb_eq in E0; rewrite E0 in L; simpl in L; lia. }
    destruct (page_content first ++ tail =? NO_DOCUMENTS) eqn:E1.
    { apply String.eqb_eq in E1; rewrite E1 in L.
      change (String.length NO_DOCUMENTS) with 54 in L; lia. }
    cbn [orb]; now rewrite slice_to_app_long.
Qed.

Lemma long_first_chunk_fills_response_witness :
  exists r,
    chat (Some sample_store) NOW office_request = Reply200 r /\
    response r =
      PREFIX ++
      slice_to 500
        (page_content
           (mkDocument (fst (nth 0 Ingest.sample_documents ("", []))) [])) ++
      SUFFIX.
Proof.
  apply (long_first_chunk_fills_response sample_store NOW 6
           (mkDocument (fst (nth 0 Ingest.sample_documents ("", []))) [])
           (map (fun t => mkDocument t [])
              (firstn 2 (tl (map fst Ingest.sample_documents))))
           office_request);
    [reflexivity | lia | reflexivity | vm_compute; lia].
Defined.

(** X6: the query text reaches the reply only through the search: two
    requests whose searches return the same documents, or both raise
    (with whatever messages), get the same reply from the same store. *)
Theorem query_matters_only_through_search (vectorstore : option Chroma)
  (now : string) (request1 request2 : ChatRequest) :
  (forall vs, vectorstore = Some vs ->
     returned (similarity_search vs (query request1) 3) =
     returned (similarity_search vs (query request2) 3)) ->
  chat vectorstore now request1 = chat vectorstore now request2.
Proof.
  destruct vectorstore as [vs|]; [|reflexivity].
  intros H; specialize (H vs eq_refl); unfold chat, chat_body.
  destruct (collection_count vs) as [n|e]; [|reflexivity]; cbn [bind].
  destruct (n >? 0)%Z; [|reflexivity].
  destruct (similarity_search vs (query request1) 3) as [r1|e1],
           (similarity_search vs (query request2) 3) as [r2|e2];
    cbn [returned] in H; try discriminate; [|reflexivity].
  now injection H as <-.
Qed.

Lemma query_matters_only_through_search_witness :
  chat (Some sample_store) NOW office_request =
  chat (Some sample_store) NOW warehouse_request.
Proof.
  apply (query_matters_only_through_search (Some sample_store) NOW
           office_request warehouse_request).
  intros vs H; injection H as <-; reflexivity.
Defined.

(** X7: against a non-empty store whose search returns, the response
    text is the fallback string exactly when nothing was retrieved or
    when the single retrieved text is empty or is the empty-database
    sentinel; two or more retrieved texts always give the template. *)
Theorem fallback_after_successful_search (vs : Chroma) (now : string) (n : Z)
  (results : list Document) (request : ChatRequest) :
  collection_count vs = Ok n -> (n > 0)%Z ->
  similarity_search vs (query request) 3 = Ok results ->
  exists r,
    chat (Some vs) now request = Reply200 r /\
    (response r = FALLBACK <->
       results = [] \/
       exists doc, results = [doc] /\
         (page_content doc = "" \/ page_content doc = NO_DOCUMENTS)).
Proof.
  intros Hc Hn Hs; eexists; split.
  - apply (chat_search_returns vs now n results request Hc Hn Hs).
  - cbn [response]; rewrite fallback_iff_context.
    apply context_of_degenerate.
Qed.

Lemma fallback_after_successful_search_witness :
  exists r,
    chat (Some sample_store) NOW office_request = Reply200 r /\
    (response r = FALLBACK <->
       map (fun t => mkDocument t []) (firstn 3 (map fst Ingest.sample_documents))
         = [] \/
       exists doc,
         map (fun t => mkDocument t []) (firstn 3 (map fst Ingest.sample_documents))
           = [doc] /\
         (page_content doc = "" \/ page_content doc = NO_DOCUMENTS)).
Proof.
  apply (fallback_after_successful_search sample_store NOW 6
           (map (fun t => mkDocument t []) (firstn 3 (map fst Ingest.sample_documents)))
           office_request);
    [reflexivity | lia | reflexivity].
Defined.

(** X8: every source of every chat response is at most 150 characters
    followed by ["..."], so it has between 3 and 153 characters. *)
Theorem sources_bounded (vectorstore : option Chroma) (now : string)
  (request : ChatRequest) :
  match chat vectorstore now request with
  | Reply200 r =>
      Forall
        (fun src =>
           (exists head, src = head ++ "..." /\ String.length head <= 150) /\
           3 <= String.length src <= 153)
        (sources r)
  | _ => True
  end.
Proof.
  destruct (chat vectorstore now request) as [r| |c d] eqn:H; try exact I.
  apply chat_reply_shape in H; destruct H as (context & results & ->).
  cbn [sources]; apply Forall_forall; intros src Hin.
  apply in_map_iff in Hin; destruct Hin as (doc & <- & _).
  destruct (source_of_shape doc) as (head & E & Hlen).
  split; [now exists head|].
  rewrite E, append_length; simpl; lia.
Qed.

(** X9: at the route, the reply does not depend on the
    [conversation_history] field of the body: absent, null or any list
    of messages, the same query gets the same reply. *)
Theorem post_chat_ignores_history (vectorstore : option Chroma) (now : string)
  (q : field string) (history1 history2 : field (list Message)) :
  post_chat vectorstore now (mkBody q history1) =
  post_chat vectorstore now (mkBody q history2).
Proof.
  unfold post_chat, parse_ChatRequest; cbn [body_query].
  destruct q as [| |text]; reflexivity.
Qed.

End ServiceFacts.
